(** * tfhelper: diff suppression and secret memoisation helpers

    A shallow embedding of the Go package [tfhelper] of the Azure DevOps
    Terraform provider (case-insensitive diff suppression, the bcrypt-memo
    diff suppressor, the flatten helper that stores the memo, and the
    generator of the memo's schema entry), together with the secret-memo
    comparator the helpers call. *)

From Stdlib Require Import String Ascii ZArith Bool.
From stdpp Require Import base option gmap strings.

Local Open Scope string_scope.

(** ** Terraform SDK data the helpers touch *)

(** The dynamic values [d.Get] hands back as [interface{}].  [VNil] is what
    [Get] returns for a key the resource schema does not declare. *)
Inductive Value : Type :=
  | VNil
  | VString (s : string)
  | VInt (z : Z)
  | VBool (b : bool).

#[global] Instance Value_eq_dec : EqDecision Value.
Proof. solve_decision. Defined.

(** The single-result type assertion [x.(string)]: [None] is the run-time
    panic Go raises when the dynamic type is not [string]. *)
Definition assertString (x : Value) : option string :=
  match x with
  | VString s => Some s
  | _ => None
  end.

(** [schema.ResourceData]: the attributes recorded by the previous apply and
    the attributes of the pass in progress (configuration merged with every
    [Set] made so far). *)
Record ResourceData : Type := mkResourceData {
  rd_prior : gmap string Value;
  rd_current : gmap string Value
}.

Module RD.

(** [d.Get(key)]: the value of the pass in progress. *)
Definition Get (d : ResourceData) (key : string) : Value :=
  default VNil (rd_current d !! key).

Definition GetPrior (d : ResourceData) (key : string) : Value :=
  default VNil (rd_prior d !! key).

(** [d.HasChange(key)]: the prior and the current value differ.  The SDK
    compares the state with the planned diff and does not count a [Set] made
    during the pass; the two readings agree on every record in which [key]
    itself has not been [Set], and the helpers only ever [Set] the memo
    attribute. *)
Definition HasChange (d : ResourceData) (key : string) : bool :=
  bool_decide (GetPrior d key ≠ Get d key).

(** [d.Set(key, v)] ([Set] is reserved in Rocq). *)
Definition Set_ (d : ResourceData) (key : string) (v : Value) : ResourceData :=
  {| rd_prior := rd_prior d; rd_current := <[key := v]> (rd_current d) |}.

End RD.

(** [schema.ValueType] and the fields of [schema.Schema] that the generator
    fills in (every other field keeps Go's zero value). *)
Inductive ValueType : Type :=
  | TypeInvalid | TypeBool | TypeInt | TypeFloat | TypeString
  | TypeList | TypeMap | TypeSet.

Record Schema : Type := mkSchema {
  Type_ : ValueType;
  Optional : bool;
  Required : bool;
  Computed : bool;
  Default : option Value;
  Description : string;
  Sensitive : bool
}.

(** ** Strings *)

Definition nl : string := String (ascii_of_nat 10) EmptyString.

(** [%t] of the [fmt] verbs. *)
Definition fmtBool (b : bool) : string := if b then "true" else "false".

(** The ASCII path of [strings.ToLower]: bytes 'A'..'Z' are moved to
    'a'..'z', every other byte is kept. *)
Definition lowerByte (c : ascii) : ascii :=
  let n := nat_of_ascii c in
  if (65 <=? n)%nat && (n <=? 90)%nat then ascii_of_nat (n + 32) else c.

Fixpoint asciiToLower (s : string) : string :=
  match s with
  | EmptyString => EmptyString
  | String c rest => String (lowerByte c) (asciiToLower rest)
  end.


(** ** Case-insensitive suppression and the memo key *)

Section CaseSensitivity.

(** [strings.ToLower] of the Go standard library. *)
Variable ToLower : string -> string.

Definition DiffFuncSupressCaseSensitivity
    (k old new : string) (d : ResourceData) : bool :=
  if String.eqb (ToLower old) (ToLower new) then true else false.

End CaseSensitivity.

Definition calcSecretHashKey (secretKey : string) : string :=
  secretKey +:+ "_hash".

Definition GenerateSecreteMemoSchema (secretKey : string) : string * Schema :=
  let out :=
    {| Type_ := TypeString;
       Optional := false;
       Required := false;
       Computed := true;
       Default := None;
       Description := "A bcrypted hash of the attribute '" +:+ secretKey +:+ "'";
       Sensitive := true |} in
  (calcSecretHashKey secretKey, out).

(** ** The secret memo (package [secretmemo]) *)

Inductive ErrorKind : Type :=
  | HashingFailed
  | MalformedDigest.

#[global] Instance ErrorKind_eq_dec : EqDecision ErrorKind.
Proof. solve_decision. Defined.

(** The text [%s] prints for an error value. *)
Definition errorText (e : ErrorKind) : string :=
  match e with
  | HashingFailed => "HashingFailed"
  | MalformedDigest => "MalformedDigest"
  end.

Record ChangeDecision : Type := mkDecision {
  isChanged : bool;
  newDigest : string;
  error : option ErrorKind
}.

Module SecretMemo.

Section Scheme.

(** The adaptive password-hashing primitive behind the memo: the salts it
    draws, the configured work factor, the inputs it accepts, the digest it
    derives from a work factor, a salt and a value, and the decoder that
    reads the work factor and the salt back out of a digest. *)
Variable Salt : Type.
Variable cost : nat.
Variable accepts : string -> bool.
Variable derive : nat -> Salt -> string -> string.
Variable parse : string -> option (nat * Salt).

(** Modelled from the spec: [hash] of SecretMemo (section 4.1), absent from
    the sources.  [entropy] is the outcome of salt generation for this call
    ([None] when it fails); the call fails with [HashingFailed] when salt
    generation fails or the primitive rejects the value, and then carries no
    digest. *)
Definition hash (entropy : option Salt) (value : string)
  : string * option ErrorKind :=
  match entropy with
  | Some salt =>
      if accepts value then (derive cost salt value, None)
      else ("", Some HashingFailed)
  | None => ("", Some HashingFailed)
  end.

(** Modelled from the spec: [verify] of SecretMemo (section 4.1), absent
    from the sources.  The candidate matches when it hashes to [digest]
    under the work factor and salt embedded in [digest]; a digest that is
    not a recognizable encoding fails with [MalformedDigest]. *)
Definition verify (candidate digest : string) : bool * option ErrorKind :=
  match parse digest with
  | Some (k, salt) => (String.eqb (derive k salt candidate) digest, None)
  | None => (false, Some MalformedDigest)
  end.

(** Modelled from the spec: steps 1 and 3 of [evaluate] (section 4.2): the
    attribute is changed and the digest is recomputed; a hashing failure is
    surfaced in [error], still with [isChanged = true] and with no digest. *)
Definition rehash (hashf : string -> string * option ErrorKind)
    (candidateValue : string) : ChangeDecision :=
  match hashf candidateValue with
  | (digest, None) =>
      {| isChanged := true; newDigest := digest; error := None |}
  | (_, Some _) =>
      {| isChanged := true; newDigest := ""; error := Some HashingFailed |}
  end.

(** Modelled from the spec: [evaluate] of ChangeGate (section 4.2), absent
    from the sources, over the two SecretMemo operations it calls. *)
Definition evaluateWith
    (hashf : string -> string * option ErrorKind)
    (verifyf : string -> string -> bool * option ErrorKind)
    (candidateValue storedDigest : string) : ChangeDecision :=
  if String.eqb storedDigest "" then rehash hashf candidateValue
  else
    match verifyf candidateValue storedDigest with
    | (_, Some _) => rehash hashf candidateValue
    | (true, None) =>
        {| isChanged := false; newDigest := storedDigest; error := None |}
    | (false, None) => rehash hashf candidateValue
    end.

(** Modelled from the spec: [evaluate] with the operations of SecretMemo
    plugged in, for the salt this call would draw. *)
Definition evaluate (entropy : option Salt)
    (candidateValue storedDigest : string) : ChangeDecision :=
  evaluateWith (hash entropy) verify candidateValue storedDigest.

(** Modelled from the spec: [secretmemo.IsUpdating], the Go entry point of
    [evaluate], returning the decision as the triple the helpers bind. *)
Definition IsUpdating (entropy : option Salt) (newSecret oldHash : string)
  : bool * string * option ErrorKind :=
  let decision := evaluate entropy newSecret oldHash in
  (isChanged decision, newDigest decision, error decision).

End Scheme.

End SecretMemo.

(** A small instance of the primitive, used to run the helpers on concrete
    records: a one-byte salt, work factor 4, values of at most 72 bytes, and
    digests made of the work-factor byte, the salt byte and a two-byte
    checksum of salt and value. *)
Module Demo.

Definition Salt : Type := ascii.
Definition cost : nat := 4.
Definition accepts (value : string) : bool := (String.length value <=? 72)%nat.

Fixpoint mix (acc : N) (value : string) : N :=
  match value with
  | EmptyString => acc
  | String c rest => mix ((acc * 31 + N_of_ascii c) mod 65521)%N rest
  end.

Definition derive (k : nat) (salt : Salt) (value : string) : string :=
  let h := mix (N.of_nat k + N_of_ascii salt)%N value in
  String (ascii_of_nat k)
    (String salt
       (String (ascii_of_N (h / 256))
          (String (ascii_of_N (h mod 256)) EmptyString))).

Definition parse (digest : string) : option (nat * Salt) :=
  match digest with
  | String k (String salt (String _ (String _ EmptyString))) =>
      Some (nat_of_ascii k, salt)
  | _ => None
  end.

Definition hash := SecretMemo.hash Salt cost accepts derive.
Definition verify := SecretMemo.verify Salt derive parse.
Definition evaluate := SecretMemo.evaluate Salt cost accepts derive parse.
Definition IsUpdating := SecretMemo.IsUpdating Salt cost accepts derive parse.

End Demo.

(** ** Running a helper: resource data, log and panics *)

Record World : Type := mkWorld {
  w_data : ResourceData;
  w_log : list string
}.

Inductive Outcome (A : Type) : Type :=
  | Returned (a : A) (w : World)
  | Panicked (w : World).

Arguments Returned {A} a w.
Arguments Panicked {A} w.

Definition M (A : Type) : Type := World -> Outcome A.

#[global] Instance M_ret : MRet M := fun A a w => Returned a w.

#[global] Instance M_bind : MBind M := fun A B f m w =>
  match m w with
  | Returned a w' => f a w'
  | Panicked w' => Panicked w'
  end.

Definition appendLog (w : World) (line : string) : World :=
  {| w_data := w_data w; w_log := w_log w ++ [line] |}.

(** [log.Printf]: the formatted message is appended to the log. *)
Definition logPrintf (line : string) : M unit := fun w =>
  Returned tt (appendLog w line).

(** [d.Get(key).(string)]. *)
Definition getString (key : string) : M string := fun w =>
  match assertString (RD.Get (w_data w) key) with
  | Some s => Returned s w
  | None => Panicked w
  end.

Definition hasChange (key : string) : M bool := fun w =>
  Returned (RD.HasChange (w_data w) key) w.

Definition setField (key : string) (v : Value) : M unit := fun w =>
  Returned tt {| w_data := RD.Set_ (w_data w) key v; w_log := w_log w |}.

(** ** The secret helpers *)

Section SecretHelpers.

(** [secretmemo.IsUpdating]. *)
Variable IsUpdating : string -> string -> bool * string * option ErrorKind.

Definition DiffFuncSupressSecretChanged (k old new : string) : M bool :=
  let memoKey := calcSecretHashKey k in
  memoValue ← getString memoKey;
  let '(isUpdating, _, err) := IsUpdating new memoValue in
  let isUnchanged := negb isUpdating in
  match err with
  | Some e =>
      logPrintf ("Change forced. Swallowing err while using secret hashing: "
                 +:+ errorText e);;
      mret false
  | None =>
      logPrintf (nl +:+ "k: " +:+ k +:+ ", old: " +:+ old +:+ ", new: " +:+ new
                 +:+ ", memoKey: " +:+ memoKey +:+ ", memoValue: " +:+ memoValue
                 +:+ ", isUnchanged: " +:+ fmtBool isUnchanged +:+ nl);;
      mret isUnchanged
  end.

Definition HelpFlattenSecret (secretKey : string) : M unit :=
  changed ← hasChange secretKey;
  if negb changed then
    logPrintf ("Secret key " +:+ secretKey +:+ " didn't get updated.")
  else
    let hashKey := calcSecretHashKey secretKey in
    newSecret ← getString secretKey;
    oldHash ← getString hashKey;
    let '(_, newHash, err) := IsUpdating newSecret oldHash in
    match err with
    | Some e =>
        logPrintf ("Swallowing err while using secret hashing: " +:+ errorText e)
    | None => mret tt
    end;;
    logPrintf ("Secret key " +:+ secretKey
               +:+ " is updated. It's new hash key and value is " +:+ hashKey
               +:+ " and " +:+ newHash +:+ ".");;
    setField hashKey (VString newHash).

End SecretHelpers.

(** The world an outcome ends in, and the value it returns, if any. *)
Definition outcomeWorld {A : Type} (o : Outcome A) : World :=
  match o with
  | Returned _ w => w
  | Panicked w => w
  end.

Definition returns {A : Type} (o : Outcome A) : Prop :=
  exists a w, o = Returned a w.

(** What a helper hands back to its caller: its result, or nothing when it
    panicked. *)
Definition returnedValue {A : Type} (o : Outcome A) : option A :=
  match o with
  | Returned a _ => Some a
  | Panicked _ => None
  end.

(** ** The aggregated Azure DevOps client (package [azuredevops]) *)

(** The two results of a fallible Go call, [(value, nil)] or [(_, err)]. *)
Inductive Result (E A : Type) : Type :=
  | Ok (a : A)
  | Err (e : E).

Arguments Ok {E A} a.
Arguments Err {E A} e.

(** The API areas a client is created for. *)
Inductive Service : Type :=
  | Core | Build | Operations | ServiceEndpoint | Git | Graph.

#[global] Instance Service_eq_dec : EqDecision Service.
Proof. solve_decision. Defined.

(** What a call of [getAzdoClient] does besides returning: the client
    constructors it calls and the lines it logs, in order. *)
Inductive Event : Type :=
  | Constructed (s : Service)
  | Logged (line : string).

#[global] Instance Event_eq_dec : EqDecision Event.
Proof. solve_decision. Defined.

(** The Azure DevOps Go SDK and the Go library calls the function makes:
    the client interfaces, [context.Background], [fmt.Errorf],
    [azuredevops.NewPatConnection] and the [NewClient] of each area
    ([operations.NewClient] is the one that returns no error). *)
Record Sdk : Type := mkSdk {
  Context : Type;
  Connection : Type;
  GoError : Type;
  core_Client : Type;
  build_Client : Type;
  git_Client : Type;
  graph_Client : Type;
  operations_Client : Type;
  serviceendpoint_Client : Type;
  Background : Context;
  Errorf : string -> GoError;
  NewPatConnection : string -> string -> Connection;
  core_NewClient : Context -> Connection -> Result GoError core_Client;
  build_NewClient : Context -> Connection -> Result GoError build_Client;
  operations_NewClient : Context -> Connection -> operations_Client;
  serviceendpoint_NewClient :
    Context -> Connection -> Result GoError serviceendpoint_Client;
  git_NewClient : Context -> Connection -> Result GoError git_Client;
  graph_NewClient : Context -> Connection -> Result GoError graph_Client
}.

Record aggregatedClient (sdk : Sdk) : Type := mkAggregatedClient {
  CoreClient : core_Client sdk;
  BuildClient : build_Client sdk;
  GitReposClient : git_Client sdk;
  GraphClient : graph_Client sdk;
  OperationsClient : operations_Client sdk;
  ServiceEndpointClient : serviceendpoint_Client sdk;
  ctx : Context sdk
}.

Arguments mkAggregatedClient {sdk}.
Arguments CoreClient {sdk}.
Arguments BuildClient {sdk}.
Arguments GitReposClient {sdk}.
Arguments GraphClient {sdk}.
Arguments OperationsClient {sdk}.
Arguments ServiceEndpointClient {sdk}.
Arguments ctx {sdk}.

(** A computation that records events and may return early with an
    error. *)
Definition Attempt (E A : Type) : Type := list Event * Result E A.

#[global] Instance Attempt_ret {E} : MRet (Attempt E) := fun A a => ([], Ok a).

#[global] Instance Attempt_bind {E} : MBind (Attempt E) := fun A B f m =>
  match m with
  | (events, Ok a) => let (more, r) := f a in ((events ++ more)%list, r)
  | (events, Err e) => (events, Err e)
  end.

(** [x, err := area.NewClient(ctx, connection)] followed by
    [if err != nil { log.Printf(line); return nil, err }]. *)
Definition newClientOrLog {E A} (s : Service) (r : Result E A) (line : string)
  : Attempt E A :=
  match r with
  | Ok a => ([Constructed s], Ok a)
  | Err e => ([Constructed s; Logged line], Err e)
  end.

(** [x := operations.NewClient(ctx, connection)]. *)
Definition newClient {E A} (s : Service) (a : A) : Attempt E A :=
  ([Constructed s], Ok a).

Definition logLine {E} (line : string) : Attempt E unit :=
  ([Logged line], Ok tt).

(** The two results a Go caller receives: the client pointer ([None] is
    [nil]) and the error. *)
Definition goResults {E A} (r : Result E A) : option A * option E :=
  match r with
  | Ok a => (Some a, None)
  | Err e => (None, Some e)
  end.

Definition getAzdoClient (sdk : Sdk) (azdoPAT organizationURL : string)
  : list Event * (option (aggregatedClient sdk) * option (GoError sdk)) :=
  let ctx := Background sdk in
  if String.eqb azdoPAT "" then
    ([], (None, Some (Errorf sdk "the personal access token is required")))
  else if String.eqb organizationURL "" then
    ([], (None, Some (Errorf sdk "the url of the Azure DevOps is required")))
  else
    let connection := NewPatConnection sdk organizationURL azdoPAT in
    let run : Attempt (GoError sdk) (aggregatedClient sdk) :=
      coreClient ← newClientOrLog Core (core_NewClient sdk ctx connection)
        "getAzdoClient(): core.NewClient failed.";
      buildClient ← newClientOrLog Build (build_NewClient sdk ctx connection)
        "getAzdoClient(): build.NewClient failed.";
      operationsClient ←
        newClient Operations (operations_NewClient sdk ctx connection);
      serviceEndpointClient ←
        newClientOrLog ServiceEndpoint
          (serviceendpoint_NewClient sdk ctx connection)
          "getAzdoClient(): serviceendpoint.NewClient failed.";
      gitReposClient ← newClientOrLog Git (git_NewClient sdk ctx connection)
        "getAzdoClient(): git.NewClient failed.";
      graphClient ← newClientOrLog Graph (graph_NewClient sdk ctx connection)
        "getAzdoClient(): graph.NewClient failed.";
      let aggregatedClient :=
        {| CoreClient := coreClient;
           BuildClient := buildClient;
           GitReposClient := gitReposClient;
           GraphClient := graphClient;
           OperationsClient := operationsClient;
           ServiceEndpointClient := serviceEndpointClient;
           ctx := ctx |} in
      logLine "getAzdoClient(): Created core, build, operations, and serviceendpoint clients successfully!";;
      mret aggregatedClient in
    (run.1, goResults run.2).

(** The order in which [getAzdoClient] creates the clients, the error a
    client's constructor reports on the connection of the given credentials
    ([None] when it succeeds), and the area's package name. *)
Definition clientOrder : list Service :=
  [Core; Build; Operations; ServiceEndpoint; Git; Graph].

Definition resultError {E A} (r : Result E A) : option E :=
  match r with
  | Ok _ => None
  | Err e => Some e
  end.

Definition constructorError (sdk : Sdk) (azdoPAT organizationURL : string)
    (s : Service) : option (GoError sdk) :=
  let ctx := Background sdk in
  let connection := NewPatConnection sdk organizationURL azdoPAT in
  match s with
  | Core => resultError (core_NewClient sdk ctx connection)
  | Build => resultError (build_NewClient sdk ctx connection)
  | Operations => None
  | ServiceEndpoint => resultError (serviceendpoint_NewClient sdk ctx connection)
  | Git => resultError (git_NewClient sdk ctx connection)
  | Graph => resultError (graph_NewClient sdk ctx connection)
  end.

Definition packageName (s : Service) : string :=
  match s with
  | Core => "core"
  | Build => "build"
  | Operations => "operations"
  | ServiceEndpoint => "serviceendpoint"
  | Git => "git"
  | Graph => "graph"
  end.

Definition isLogged (e : Event) : bool :=
  match e with
  | Logged _ => true
  | Constructed _ => false
  end.

Definition constructed (events : list Event) : list Service :=
  omap (fun e => match e with Constructed s => Some s | Logged _ => None end)
       events.

(** An SDK whose connections are the pair of URL and token and whose
    constructors fail for the areas listed in [down]. *)
Module DemoSdk.

Definition construct (down : list Service) (s : Service)
    (connection : string * string) : Result string (Service * (string * string)) :=
  if bool_decide (s ∈ down) then Err (packageName s +:+ " is unreachable")
  else Ok (s, connection).

Definition sdk (down : list Service) : Sdk :=
  {| Context := unit;
     Connection := string * string;
     GoError := string;
     core_Client := Service * (string * string);
     build_Client := Service * (string * string);
     git_Client := Service * (string * string);
     graph_Client := Service * (string * string);
     operations_Client := Service * (string * string);
     serviceendpoint_Client := Service * (string * string);
     Background := tt;
     Errorf := fun msg => msg;
     NewPatConnection := fun organizationURL azdoPAT => (organizationURL, azdoPAT);
     core_NewClient := fun _ => construct down Core;
     build_NewClient := fun _ => construct down Build;
     operations_NewClient := fun _ connection => (Operations, connection);
     serviceendpoint_NewClient := fun _ => construct down ServiceEndpoint;
     git_NewClient := fun _ => construct down Git;
     graph_NewClient := fun _ => construct down Graph |}.

End DemoSdk.

(** ** Sample records *)

Module Sample.

Definition salt : Demo.Salt := "x"%char.
Definition otherSalt : Demo.Salt := "y"%char.

(** The memo of "s3cr3t" under [salt]. *)
Definition memo : string := Demo.derive Demo.cost salt "s3cr3t".

Definition record (prior current : list (string * Value)) : World :=
  {| w_data :=
       {| rd_prior := list_to_map prior; rd_current := list_to_map current |};
     w_log := [] |}.

(** First apply: the secret is new and no memo was ever stored. *)
Definition fresh : World :=
  record [("password", VString ""); ("password_hash", VString "")]
         [("password", VString "s3cr3t"); ("password_hash", VString "")].

(** The stored memo is not a digest. *)
Definition stale : World :=
  record [("password", VString "old");
          ("password_hash", VString "not-a-valid-digest")]
         [("password", VString "s3cr3t");
          ("password_hash", VString "not-a-valid-digest")].

(** The secret is the one the memo was computed from. *)
Definition memoised : World :=
  record [("password", VString "s3cr3t"); ("password_hash", VString memo)]
         [("password", VString "s3cr3t"); ("password_hash", VString memo)].

(** The secret was rotated after the memo was stored. *)
Definition rotated : World :=
  record [("password", VString "s3cr3t"); ("password_hash", VString memo)]
         [("password", VString "new-s3cr3t"); ("password_hash", VString memo)].

(** The schema declares no memo attribute. *)
Definition undeclared : World :=
  record [("password", VString "")] [("password", VString "s3cr3t")].

(** The schema declares the memo attribute with a type other than string. *)
Definition mistyped : World :=
  record [("password", VString ""); ("password_hash", VInt 0)]
         [("password", VString "s3cr3t"); ("password_hash", VInt 0)].

End Sample.

(** * Properties *)

(** ** Case-insensitive suppression *)

Example case_suppressed_ascii :
  DiffFuncSupressCaseSensitivity asciiToLower "name" "Hello-World" "hELLO-wORLD"
    (mkResourceData ∅ ∅) = true.
Proof. reflexivity. Qed.

Example case_not_suppressed_ascii :
  DiffFuncSupressCaseSensitivity asciiToLower "name" "Hello" "Hallo"
    (mkResourceData ∅ ∅) = false.
Proof. reflexivity. Qed.

(** C10: the case-insensitivity suppressor returns [true] exactly when the
    old and the new string are equal after lowercasing both; hence every
    string is suppressed against itself, and the answer does not change when
    old and new are swapped. *)
Theorem DiffFuncSupressCaseSensitivity_lowercase_equality
    (ToLower : string -> string) (k old new : string) (d : ResourceData) :
  (DiffFuncSupressCaseSensitivity ToLower k old new d = true
     <-> ToLower old = ToLower new)
  /\ DiffFuncSupressCaseSensitivity ToLower k old old d = true
  /\ DiffFuncSupressCaseSensitivity ToLower k old new d
     = DiffFuncSupressCaseSensitivity ToLower k new old d.
Proof.
  unfold DiffFuncSupressCaseSensitivity.
  repeat split.
  - destruct (String.eqb_spec (ToLower old) (ToLower new)); congruence.
  - intros ->. now rewrite String.eqb_refl.
  - now rewrite String.eqb_refl.
  - now rewrite (String.eqb_sym (ToLower old)).
Qed.

(** ** The memo's schema entry *)

Example memo_schema_key : (GenerateSecreteMemoSchema "password").1 = "password_hash".
Proof. reflexivity. Qed.

(** C9: for every secret attribute name X the generated entry is keyed
    X followed by "_hash" and declares a computed, sensitive, string-typed
    attribute without a default. *)
Theorem GenerateSecreteMemoSchema_companion (X : string) :
  let (key, entry) := GenerateSecreteMemoSchema X in
  key = X +:+ "_hash"
  /\ key = calcSecretHashKey X
  /\ Type_ entry = TypeString
  /\ Computed entry = true
  /\ Sensitive entry = true
  /\ Default entry = None
  /\ Required entry = false
  /\ Optional entry = false.
Proof. cbn. unfold calcSecretHashKey. repeat split. Qed.

(** ** Running the secret helpers *)

Section HelperFacts.

Variable IsUpdating : string -> string -> bool * string * option ErrorKind.

Lemma getString_returns key w s :
  RD.Get (w_data w) key = VString s -> getString key w = Returned s w.
Proof. unfold getString. now intros ->. Qed.

Lemma getString_panics key w :
  assertString (RD.Get (w_data w) key) = None -> getString key w = Panicked w.
Proof. unfold getString. now intros ->. Qed.

Lemma assertString_cases (x : Value) :
  (exists s, x = VString s) \/ assertString x = None.
Proof. destruct x; cbn; eauto. Qed.

Ltac run_helper :=
  unfold DiffFuncSupressSecretChanged, HelpFlattenSecret, hasChange,
    logPrintf, setField; unfold mbind, M_bind, mret, M_ret.

Lemma DiffFunc_panics k old new w :
  assertString (RD.Get (w_data w) (calcSecretHashKey k)) = None ->
  DiffFuncSupressSecretChanged IsUpdating k old new w = Panicked w.
Proof. intros Hget. run_helper. now rewrite (getString_panics _ _ Hget). Qed.

Lemma DiffFunc_error k old new w memo b h e :
  RD.Get (w_data w) (calcSecretHashKey k) = VString memo ->
  IsUpdating new memo = (b, h, Some e) ->
  DiffFuncSupressSecretChanged IsUpdating k old new w
  = Returned false
      (appendLog w
         ("Change forced. Swallowing err while using secret hashing: "
          +:+ errorText e)).
Proof.
  intros Hget Hup. run_helper.
  rewrite (getString_returns _ _ _ Hget). now rewrite Hup.
Qed.

Lemma DiffFunc_no_error k old new w memo b h :
  RD.Get (w_data w) (calcSecretHashKey k) = VString memo ->
  IsUpdating new memo = (b, h, None) ->
  exists line,
    DiffFuncSupressSecretChanged IsUpdating k old new w
    = Returned (negb b) (appendLog w line).
Proof.
  intros Hget Hup. run_helper.
  rewrite (getString_returns _ _ _ Hget). rewrite Hup. eauto.
Qed.







Lemma Flatten_no_change secretKey w :
  RD.HasChange (w_data w) secretKey = false ->
  HelpFlattenSecret IsUpdating secretKey w
  = Returned tt
      (appendLog w ("Secret key " +:+ secretKey +:+ " didn't get updated.")).
Proof. intros Hch. run_helper. now rewrite Hch. Qed.

Lemma Flatten_panics secretKey w :
  RD.HasChange (w_data w) secretKey = true ->
  assertString (RD.Get (w_data w) secretKey) = None
  \/ assertString (RD.Get (w_data w) (calcSecretHashKey secretKey)) = None ->
  HelpFlattenSecret IsUpdating secretKey w = Panicked w.
Proof.
  intros Hch Hbad. run_helper. rewrite Hch. cbn.
  destruct (assertString_cases (RD.Get (w_data w) secretKey))
    as [[s Hs]|Hs].
  - destruct Hbad as [Hbad|Hbad]; [rewrite Hs in Hbad; discriminate|].
    rewrite (getString_returns _ _ _ Hs).
    now rewrite (getString_panics _ _ Hbad).
  - now rewrite (getString_panics _ _ Hs).
Qed.

Lemma Flatten_change secretKey w newSecret oldHash b newHash err :
  RD.HasChange (w_data w) secretKey = true ->
  RD.Get (w_data w) secretKey = VString newSecret ->
  RD.Get (w_data w) (calcSecretHashKey secretKey) = VString oldHash ->
  IsUpdating newSecret oldHash = (b, newHash, err) ->
  HelpFlattenSecret IsUpdating secretKey w
  = Returned tt
      {| w_data :=
           RD.Set_ (w_data w) (calcSecretHashKey secretKey) (VString newHash);
         w_log :=
           w_log w
           ++ match err with
              | Some e =>
                  ["Swallowing err while using secret hashing: "
                   +:+ errorText e]
              | None => []
              end
           ++ ["Secret key " +:+ secretKey
               +:+ " is updated. It's new hash key and value is "
               +:+ calcSecretHashKey secretKey
               +:+ " and " +:+ newHash +:+ "."] |}.
Proof.
  intros Hch Hs Ho Hup. run_helper. rewrite Hch. cbn.
  rewrite (getString_returns _ _ _ Hs), (getString_returns _ _ _ Ho), Hup.
  destruct err as [e|]; cbn; unfold appendLog; cbn.
  - now rewrite <- app_assoc.
  - reflexivity.
Qed.

(** Writing back the value a string attribute already holds changes
    nothing. *)
Lemma Set_same d key v : RD.Get d key = VString v -> RD.Set_ d key (VString v) = d.
Proof.
  unfold RD.Get, RD.Set_. destruct d as [prior current]; cbn.
  destruct (current !! key) as [x|] eqn:Hx; cbn; [|discriminate].
  intros ->. now rewrite insert_id.
Qed.

Lemma Get_Set_same d key v : RD.Get (RD.Set_ d key v) key = v.
Proof. unfold RD.Get, RD.Set_; cbn. now rewrite lookup_insert_eq. Qed.

Lemma Get_Set_other d key key' v :
  key <> key' -> RD.Get (RD.Set_ d key v) key' = RD.Get d key'.
Proof. intros Hne. unfold RD.Get, RD.Set_; cbn. now rewrite lookup_insert_ne. Qed.

End HelperFacts.

(** ** The secret memo *)

Section SchemeFacts.

Variable Salt : Type.
Variable cost : nat.
Variable accepts : string -> bool.
Variable derive : nat -> Salt -> string -> string.
Variable parse : string -> option (nat * Salt).

Local Abbreviation hash := (SecretMemo.hash Salt cost accepts derive).
Local Abbreviation verify := (SecretMemo.verify Salt derive parse).
Local Abbreviation evaluate := (SecretMemo.evaluate Salt cost accepts derive parse).
Local Abbreviation evaluateWith := SecretMemo.evaluateWith.
Local Abbreviation rehash := SecretMemo.rehash.

(** The digest encodes its own salt and cost factor. *)
Hypothesis digest_self_describing :
  forall salt value, parse (derive cost salt value) = Some (cost, salt).

(** A successful [hash] drew a salt, was given a value the primitive
    accepts, and returns the digest derived from them. *)
Lemma hash_success entropy value digest :
  hash entropy value = (digest, None) ->
  exists salt,
    entropy = Some salt /\ accepts value = true
    /\ digest = derive cost salt value.
Proof.
  unfold SecretMemo.hash.
  destruct entropy as [salt|]; [|discriminate].
  destruct (accepts value) eqn:Hacc; [|discriminate].
  intros [= <-]. now exists salt.
Qed.

(** Every failure of [hash] is [HashingFailed], and comes without digest. *)
Lemma hash_failure entropy value digest e :
  hash entropy value = (digest, Some e) -> e = HashingFailed /\ digest = "".
Proof.
  unfold SecretMemo.hash.
  destruct entropy as [salt|]; [destruct (accepts value)|];
    intros [= <- <-]; auto.
Qed.

Lemma verify_derived salt value :
  verify value (derive cost salt value) = (true, None).
Proof.
  unfold SecretMemo.verify.
  rewrite digest_self_describing. now rewrite String.eqb_refl.
Qed.

Lemma verify_round_trip entropy value digest :
  hash entropy value = (digest, None) -> verify value digest = (true, None).
Proof.
  intros (salt & _ & _ & ->)%hash_success. apply verify_derived.
Qed.

(** The only failure of [verify] is [MalformedDigest], on a digest the
    decoder does not recognise. *)
Lemma verify_failure candidate digest b e :
  verify candidate digest = (b, Some e) ->
  e = MalformedDigest /\ b = false /\ parse digest = None.
Proof using Type.
  unfold SecretMemo.verify.
  destruct (parse digest) as [[k salt]|]; [discriminate|].
  intros [= <- <-]; auto.
Qed.

Lemma verify_match_recognised candidate digest :
  verify candidate digest = (true, None) -> parse digest <> None.
Proof using Type.
  unfold SecretMemo.verify.
  destruct (parse digest) as [[k salt]|]; [discriminate|]. intros [=].
Qed.

(** What [rehash] decides, read off the result of [hash]. *)
Lemma rehash_changed hashf value : isChanged (rehash hashf value) = true.
Proof using Type.
  unfold SecretMemo.rehash. now destruct (hashf value) as [digest [e|]].
Qed.

Lemma rehash_error hashf value e :
  error (rehash hashf value) = Some e ->
  e = HashingFailed /\ newDigest (rehash hashf value) = "".
Proof using Type.
  unfold SecretMemo.rehash. destruct (hashf value) as [digest [e'|]]; cbn.
  - intros [= <-]; auto.
  - discriminate.
Qed.

Lemma rehash_success hashf value :
  error (rehash hashf value) = None ->
  hashf value = (newDigest (rehash hashf value), None).
Proof using Type.
  unfold SecretMemo.rehash. destruct (hashf value) as [digest [e'|]]; cbn.
  - discriminate.
  - reflexivity.
Qed.

Lemma evaluate_empty entropy value :
  evaluate entropy value "" = rehash (hash entropy) value.
Proof using Type. reflexivity. Qed.

Lemma evaluate_malformed entropy value digest :
  parse digest = None ->
  evaluate entropy value digest = rehash (hash entropy) value.
Proof using Type.
  intros Hparse. unfold SecretMemo.evaluate, SecretMemo.evaluateWith.
  destruct (String.eqb digest ""); [reflexivity|].
  unfold SecretMemo.verify. now rewrite Hparse.
Qed.

(** Whatever the stored digest, [evaluate] either keeps it (the candidate
    verified) or rehashes. *)
Lemma evaluate_cases entropy value digest :
  (verify value digest = (true, None) /\ digest <> ""
   /\ evaluate entropy value digest
      = {| isChanged := false; newDigest := digest; error := None |})
  \/ evaluate entropy value digest = rehash (hash entropy) value.
Proof using Type.
  unfold SecretMemo.evaluate, SecretMemo.evaluateWith.
  destruct (String.eqb_spec digest "") as [->|Hne]; [now right|].
  destruct (verify value digest) as [[|] [e|]]; auto.
Qed.

Local Abbreviation IsUpdating :=
  (SecretMemo.IsUpdating Salt cost accepts derive parse).

(** The uninitialised state field is not a digest. *)
Hypothesis empty_unrecognised : parse "" = None.

Lemma IsUpdating_decision entropy newSecret oldHash :
  IsUpdating entropy newSecret oldHash
  = (isChanged (evaluate entropy newSecret oldHash),
     newDigest (evaluate entropy newSecret oldHash),
     error (evaluate entropy newSecret oldHash)).
Proof using Type. reflexivity. Qed.

Lemma evaluate_verified entropy value digest :
  verify value digest = (true, None) ->
  evaluate entropy value digest
  = {| isChanged := false; newDigest := digest; error := None |}.
Proof.
  intros Hv. unfold SecretMemo.evaluate, SecretMemo.evaluateWith.
  destruct (String.eqb_spec digest "") as [->|Hne].
  - apply verify_match_recognised in Hv. contradiction.
  - now rewrite Hv.
Qed.

Lemma evaluate_error entropy value digest e :
  error (evaluate entropy value digest) = Some e ->
  evaluate entropy value digest
  = {| isChanged := true; newDigest := ""; error := Some HashingFailed |}.
Proof using Type.
  destruct (evaluate_cases entropy value digest)
    as [(_ & _ & ->) | ->]; [discriminate|].
  unfold SecretMemo.rehash.
  destruct (SecretMemo.hash _ _ _ _ entropy value) as [d [e'|]]; cbn.
  - reflexivity.
  - discriminate.
Qed.

(** C6: hashing then verifying round-trips: for every non-empty value, a
    successful [hash] returns a digest against which [verify] answers
    [(true, nil)]. *)
Theorem verify_accepts_hash_digest entropy value digest :
  value <> "" ->
  hash entropy value = (digest, None) ->
  verify value digest = (true, None).
Proof. intros _. apply verify_round_trip. Qed.


(** C3, amended: with an empty stored digest [evaluate] always answers
    "changed" and never consults [verify]; when hashing succeeds the new
    digest is non-empty and verifies against the candidate, and when hashing
    fails the decision carries [HashingFailed] and no digest.  The diff
    suppressor then does not suppress. *)
Theorem evaluate_without_prior_digest entropy value :
  isChanged (evaluate entropy value "") = true
  /\ (forall verifyf,
        evaluateWith (hash entropy) verifyf value ""
        = evaluate entropy value "")
  /\ (error (evaluate entropy value "") = None ->
        newDigest (evaluate entropy value "") <> ""
        /\ verify value (newDigest (evaluate entropy value "")) = (true, None))
  /\ (error (evaluate entropy value "") <> None ->
        error (evaluate entropy value "") = Some HashingFailed
        /\ newDigest (evaluate entropy value "") = "")
  /\ (forall k old w,
        RD.Get (w_data w) (calcSecretHashKey k) = VString "" ->
        exists w',
          DiffFuncSupressSecretChanged (IsUpdating entropy) k old value w
          = Returned false w').
Proof.
  rewrite evaluate_empty.
  split; [apply rehash_changed|]. split; [reflexivity|].
  split; [|split].
  - intros Hok. apply rehash_success in Hok.
    pose proof (verify_round_trip _ _ _ Hok) as V.
    split; [|exact V].
    intros Heq. rewrite Heq in V.
    apply verify_match_recognised in V. contradiction.
  - intros Hfail.
    destruct (error (rehash (hash entropy) value)) as [e|] eqn:He;
      [|contradiction].
    now destruct (rehash_error _ _ _ He) as [-> ->].
  - intros k old w Hget.
    pose proof (IsUpdating_decision entropy value "") as Hup.
    rewrite evaluate_empty, rehash_changed in Hup.
    destruct (error (rehash (hash entropy) value)) as [e|].
    + rewrite (DiffFunc_error _ _ _ _ _ _ _ _ _ Hget Hup). eauto.
    + destruct (DiffFunc_no_error _ k old _ _ _ _ _ Hget Hup) as [line ->].
      cbn. eauto.
Qed.

(** C4: when the stored digest is a valid digest of the candidate,
    [evaluate] answers "unchanged" and hands back the stored digest itself
    without calling [hash]; the diff suppressor suppresses, and the flatten
    helper leaves the record, the memo included, exactly as it was. *)
Theorem evaluate_verified_keeps_digest entropy value digest :
  verify value digest = (true, None) ->
  evaluate entropy value digest
  = {| isChanged := false; newDigest := digest; error := None |}
  /\ (forall hashf,
        evaluateWith hashf verify value digest
        = evaluate entropy value digest)
  /\ (forall k old w,
        RD.Get (w_data w) (calcSecretHashKey k) = VString digest ->
        exists line,
          DiffFuncSupressSecretChanged (IsUpdating entropy) k old value w
          = Returned true (appendLog w line))
  /\ (forall secretKey w,
        RD.Get (w_data w) secretKey = VString value ->
        RD.Get (w_data w) (calcSecretHashKey secretKey) = VString digest ->
        exists w',
          HelpFlattenSecret (IsUpdating entropy) secretKey w = Returned tt w'
          /\ w_data w' = w_data w).
Proof.
  intros Hv. pose proof (evaluate_verified entropy value digest Hv) as Hev.
  split; [exact Hev|]. split; [|split].
  - intros hashf. rewrite Hev. unfold SecretMemo.evaluateWith.
    destruct (String.eqb_spec digest "") as [->|Hne].
    + apply verify_match_recognised in Hv. contradiction.
    + now rewrite Hv.
  - intros k old w Hget.
    pose proof (IsUpdating_decision entropy value digest) as Hup.
    rewrite Hev in Hup. cbn in Hup.
    exact (DiffFunc_no_error _ k old _ _ _ _ _ Hget Hup).
  - intros secretKey w Hs Ho.
    destruct (RD.HasChange (w_data w) secretKey) eqn:Hch.
    + pose proof (IsUpdating_decision entropy value digest) as Hup.
      rewrite Hev in Hup. cbn in Hup.
      rewrite (Flatten_change _ _ _ _ _ _ _ _ Hch Hs Ho Hup).
      eexists. split; [reflexivity|]. cbn. now apply Set_same.
    + rewrite (Flatten_no_change _ _ _ Hch). eexists. split; reflexivity.
Qed.

(** C5, amended: a stored digest that is not a recognizable encoding is
    treated as no prior record: [evaluate] decides exactly as for the empty
    digest, answers "changed" and never reports [MalformedDigest]; it
    reports no error when the rehash succeeds, and when the rehash fails it
    reports that [HashingFailed] with no digest.  The diff suppressor does
    not suppress in either case. *)
Theorem evaluate_malformed_digest_absorbed entropy value digest :
  parse digest = None ->
  evaluate entropy value digest = evaluate entropy value ""
  /\ isChanged (evaluate entropy value digest) = true
  /\ error (evaluate entropy value digest) <> Some MalformedDigest
  /\ (forall fresh,
        hash entropy value = (fresh, None) ->
        evaluate entropy value digest
        = {| isChanged := true; newDigest := fresh; error := None |})
  /\ (forall fresh e,
        hash entropy value = (fresh, Some e) ->
        evaluate entropy value digest
        = {| isChanged := true; newDigest := "";
             error := Some HashingFailed |})
  /\ (forall k old w,
        RD.Get (w_data w) (calcSecretHashKey k) = VString digest ->
        exists w',
          DiffFuncSupressSecretChanged (IsUpdating entropy) k old value w
          = Returned false w').
Proof using Type.
  intros Hparse. rewrite evaluate_empty, (evaluate_malformed _ _ _ Hparse).
  split; [reflexivity|]. split; [apply rehash_changed|].
  split; [|split; [|split]].
  - intros He. now destruct (rehash_error _ _ _ He).
  - intros fresh Hh. unfold SecretMemo.rehash. now rewrite Hh.
  - intros fresh e Hh. unfold SecretMemo.rehash. now rewrite Hh.
  - intros k old w Hget.
    pose proof (IsUpdating_decision entropy value digest) as Hup.
    rewrite (evaluate_malformed _ _ _ Hparse), rehash_changed in Hup.
    destruct (error (rehash (hash entropy) value)) as [e|].
    + rewrite (DiffFunc_error _ _ _ _ _ _ _ _ _ Hget Hup). eauto.
    + destruct (DiffFunc_no_error _ k old _ _ _ _ _ Hget Hup) as [line ->].
      cbn. eauto.
Qed.

(** C1, amended: when [evaluate] fails with [HashingFailed] the decision is
    "changed" and carries no digest, and the diff suppressor logs the error
    and does not suppress, writing nothing.  The flatten helper swallows the
    error: on an attribute with a pending change it still sets the memo to
    the digest returned with the error, which replaces the stored digest by
    the empty string; it writes nothing only when the attribute has no
    pending change. *)
Theorem hashing_failure_forces_change entropy value digest e :
  error (evaluate entropy value digest) = Some e ->
  e = HashingFailed
  /\ isChanged (evaluate entropy value digest) = true
  /\ newDigest (evaluate entropy value digest) = ""
  /\ (forall k old w,
        RD.Get (w_data w) (calcSecretHashKey k) = VString digest ->
        DiffFuncSupressSecretChanged (IsUpdating entropy) k old value w
        = Returned false
            (appendLog w
               ("Change forced. Swallowing err while using secret hashing: "
                +:+ errorText HashingFailed)))
  /\ (forall secretKey w,
        RD.Get (w_data w) secretKey = VString value ->
        RD.Get (w_data w) (calcSecretHashKey secretKey) = VString digest ->
        exists w',
          HelpFlattenSecret (IsUpdating entropy) secretKey w = Returned tt w'
          /\ w_data w'
             = if RD.HasChange (w_data w) secretKey
               then RD.Set_ (w_data w) (calcSecretHashKey secretKey) (VString "")
               else w_data w).
Proof using Type.
  intros He. pose proof (evaluate_error _ _ _ _ He) as Hev.
  pose proof (IsUpdating_decision entropy value digest) as Hup.
  rewrite Hev in He, Hup |- *. cbn in He, Hup |- *.
  split; [congruence|]. split; [reflexivity|]. split; [reflexivity|]. split.
  - intros k old w Hget.
    exact (DiffFunc_error _ _ _ _ _ _ _ _ _ Hget Hup).
  - intros secretKey w Hs Ho.
    destruct (RD.HasChange (w_data w) secretKey) eqn:Hch.
    + rewrite (Flatten_change _ _ _ _ _ _ _ _ Hch Hs Ho Hup).
      eexists. split; reflexivity.
    + rewrite (Flatten_no_change _ _ _ Hch). eexists. split; reflexivity.
Qed.

End SchemeFacts.

(** ** What the helpers write and when they return *)


(** C8, amended: [hash], [verify] and [evaluate] report every failure in
    their result; the diff suppressor returns exactly when the memo
    attribute reads as a string, and the flatten helper returns exactly when
    the secret has no pending change or both the secret and the memo read as
    strings.  On any other record the unchecked type assertion panics. *)
Theorem entry_points_return_iff_string_fields
    (Salt : Type) (cost : nat) (accepts : string -> bool)
    (derive : nat -> Salt -> string -> string)
    (parse : string -> option (nat * Salt))
    (entropy : option Salt) (value digest : string)
    (IsUpdating : string -> string -> bool * string * option ErrorKind)
    (k old new secretKey : string) (w : World) :
  ((SecretMemo.hash Salt cost accepts derive entropy value).2 = None
   \/ SecretMemo.hash Salt cost accepts derive entropy value
      = ("", Some HashingFailed))
  /\ ((SecretMemo.verify Salt derive parse value digest).2 = None
      \/ SecretMemo.verify Salt derive parse value digest
         = (false, Some MalformedDigest))
  /\ (error (SecretMemo.evaluate Salt cost accepts derive parse
               entropy value digest) = None
      \/ SecretMemo.evaluate Salt cost accepts derive parse entropy value digest
         = {| isChanged := true; newDigest := ""; error := Some HashingFailed |})
  /\ (returns (DiffFuncSupressSecretChanged IsUpdating k old new w)
      <-> exists memo,
            RD.Get (w_data w) (calcSecretHashKey k) = VString memo)
  /\ (DiffFuncSupressSecretChanged IsUpdating k old new w = Panicked w
      <-> assertString (RD.Get (w_data w) (calcSecretHashKey k)) = None)
  /\ (returns (HelpFlattenSecret IsUpdating secretKey w)
      <-> RD.HasChange (w_data w) secretKey = false
          \/ ((exists newSecret, RD.Get (w_data w) secretKey = VString newSecret)
              /\ exists oldHash,
                   RD.Get (w_data w) (calcSecretHashKey secretKey)
                   = VString oldHash)).
Proof.
  split; [|split; [|split; [|split; [|split]]]].
  - destruct (SecretMemo.hash Salt cost accepts derive entropy value)
      as [d [e|]] eqn:Hh; [right|now left].
    now destruct (hash_failure _ _ _ _ _ _ _ _ Hh) as [-> ->].
  - destruct (SecretMemo.verify Salt derive parse value digest)
      as [b [e|]] eqn:Hv; [right|now left].
    now destruct (verify_failure _ _ _ _ _ _ _ Hv) as (-> & -> & _).
  - destruct (error (SecretMemo.evaluate Salt cost accepts derive parse
                       entropy value digest)) as [e|] eqn:He; [right|now left].
    exact (evaluate_error _ _ _ _ _ _ _ _ _ He).
  - split.
    + intros (b & w' & Hrun).
      destruct (assertString_cases (RD.Get (w_data w) (calcSecretHashKey k)))
        as [Hs|Hs]; [exact Hs|].
      rewrite (DiffFunc_panics _ _ _ _ _ Hs) in Hrun. discriminate.
    + intros [memo Hget]. unfold returns.
      destruct (IsUpdating new memo) as [[b h] [e|]] eqn:Hup.
      * rewrite (DiffFunc_error _ _ _ _ _ _ _ _ _ Hget Hup). eauto.
      * destruct (DiffFunc_no_error _ k old _ _ _ _ _ Hget Hup) as [line ->].
        eauto.
  - split.
    + intros Hrun.
      destruct (assertString_cases (RD.Get (w_data w) (calcSecretHashKey k)))
        as [[memo Hget]|Hs]; [|exact Hs].
      destruct (IsUpdating new memo) as [[b h] [e|]] eqn:Hup.
      * rewrite (DiffFunc_error _ _ _ _ _ _ _ _ _ Hget Hup) in Hrun.
        discriminate.
      * destruct (DiffFunc_no_error _ k old _ _ _ _ _ Hget Hup) as [line Hl].
        rewrite Hl in Hrun. discriminate.
    + apply DiffFunc_panics.
  - split.
    + intros (u & w' & Hrun).
      destruct (RD.HasChange (w_data w) secretKey) eqn:Hch; [right|now left].
      destruct (assertString_cases (RD.Get (w_data w) secretKey))
        as [Hs|Hs].
      * destruct (assertString_cases
                    (RD.Get (w_data w) (calcSecretHashKey secretKey)))
          as [Ho|Ho]; [now split|].
        rewrite Flatten_panics in Hrun; auto. discriminate.
      * rewrite Flatten_panics in Hrun; auto. discriminate.
    + unfold returns.
      destruct (RD.HasChange (w_data w) secretKey) eqn:Hch.
      * intros [|[[s Hs] [o Ho]]]; [discriminate|].
        destruct (IsUpdating s o) as [[b h] err] eqn:Hup.
        rewrite (Flatten_change _ _ _ _ _ _ _ _ Hch Hs Ho Hup). eauto.
      * intros _. rewrite (Flatten_no_change _ _ _ Hch). eauto.
Qed.

(** ** The properties on the sample records *)

Lemma demo_self_describing (salt : Demo.Salt) (value : string) :
  Demo.parse (Demo.derive Demo.cost salt value) = Some (Demo.cost, salt).
Proof. reflexivity. Qed.

(** The scenario of a first apply, a re-apply and a rotation. *)
Example rotation_scenario :
  let first := Demo.evaluate (Some Sample.salt) "s3cr3t" "" in
  let again := Demo.evaluate (Some Sample.otherSalt) "s3cr3t" (newDigest first) in
  let rotate :=
    Demo.evaluate (Some Sample.otherSalt) "new-s3cr3t" (newDigest first) in
  isChanged first = true
  /\ Demo.verify "s3cr3t" (newDigest first) = (true, None)
  /\ again = {| isChanged := false; newDigest := newDigest first; error := None |}
  /\ isChanged rotate = true
  /\ Demo.verify "new-s3cr3t" (newDigest rotate) = (true, None)
  /\ Demo.verify "s3cr3t" (newDigest rotate) = (false, None)
  /\ newDigest rotate <> newDigest first.
Proof. cbv zeta. repeat split. vm_compute. discriminate. Qed.

Lemma verify_accepts_hash_digest_witness :
  "s3cr3t" <> ""
  /\ Demo.hash (Some Sample.salt) "s3cr3t" = (Sample.memo, None)
  /\ Demo.verify "s3cr3t" Sample.memo = (true, None).
Proof.
  assert (Hne : "s3cr3t" <> "") by discriminate.
  assert (Hh : Demo.hash (Some Sample.salt) "s3cr3t" = (Sample.memo, None))
    by reflexivity.
  split; [exact Hne|]. split; [exact Hh|].
  exact (verify_accepts_hash_digest Demo.Salt Demo.cost Demo.accepts
           Demo.derive Demo.parse (fun salt value => eq_refl)
           (Some Sample.salt) "s3cr3t" Sample.memo Hne Hh).
Defined.


Lemma evaluate_without_prior_digest_witness :
  (forall salt value,
     Demo.parse (Demo.derive Demo.cost salt value) = Some (Demo.cost, salt))
  /\ Demo.parse "" = None
  /\ isChanged (Demo.evaluate (Some Sample.salt) "s3cr3t" "") = true
  /\ newDigest (Demo.evaluate (Some Sample.salt) "s3cr3t" "") <> ""
  /\ Demo.verify "s3cr3t"
       (newDigest (Demo.evaluate (Some Sample.salt) "s3cr3t" ""))
     = (true, None)
  /\ exists w',
       DiffFuncSupressSecretChanged (Demo.IsUpdating (Some Sample.salt))
         "password" "" "s3cr3t" Sample.fresh
       = Returned false w'.
Proof.
  split; [intros salt value; reflexivity|]. split; [reflexivity|].
  destruct (evaluate_without_prior_digest Demo.Salt Demo.cost Demo.accepts
              Demo.derive Demo.parse (fun salt value => eq_refl) eq_refl
              (Some Sample.salt) "s3cr3t")
    as (Hchanged & _ & Hdigest & _ & Hdiff).
  split; [exact Hchanged|].
  destruct (Hdigest eq_refl) as [Hne Hv].
  split; [exact Hne|]. split; [exact Hv|].
  exact (Hdiff "password" "" Sample.fresh eq_refl).
Defined.

Lemma evaluate_verified_keeps_digest_witness :
  Demo.parse "" = None
  /\ Demo.verify "s3cr3t" Sample.memo = (true, None)
  /\ Demo.evaluate (Some Sample.otherSalt) "s3cr3t" Sample.memo
     = {| isChanged := false; newDigest := Sample.memo; error := None |}
  /\ (exists line,
        DiffFuncSupressSecretChanged (Demo.IsUpdating (Some Sample.otherSalt))
          "password" "s3cr3t" "s3cr3t" Sample.memoised
        = Returned true (appendLog Sample.memoised line))
  /\ (exists w',
        HelpFlattenSecret (Demo.IsUpdating (Some Sample.otherSalt))
          "password" Sample.memoised
        = Returned tt w'
        /\ w_data w' = w_data Sample.memoised).
Proof.
  assert (Hv : Demo.verify "s3cr3t" Sample.memo = (true, None)) by reflexivity.
  split; [reflexivity|]. split; [exact Hv|].
  destruct (evaluate_verified_keeps_digest Demo.Salt Demo.cost Demo.accepts
              Demo.derive Demo.parse eq_refl
              (Some Sample.otherSalt) "s3cr3t" Sample.memo Hv)
    as (Hev & _ & Hdiff & Hflat).
  split; [exact Hev|]. split.
  - exact (Hdiff "password" "s3cr3t" Sample.memoised eq_refl).
  - exact (Hflat "password" Sample.memoised eq_refl eq_refl).
Defined.

Lemma evaluate_malformed_digest_absorbed_witness :
  Demo.parse "not-a-valid-digest" = None
  /\ isChanged (Demo.evaluate (Some Sample.salt) "s3cr3t" "not-a-valid-digest")
     = true
  /\ error (Demo.evaluate (Some Sample.salt) "s3cr3t" "not-a-valid-digest")
     <> Some MalformedDigest
  /\ Demo.evaluate (Some Sample.salt) "s3cr3t" "not-a-valid-digest"
     = {| isChanged := true; newDigest := Sample.memo; error := None |}
  /\ exists w',
       DiffFuncSupressSecretChanged (Demo.IsUpdating (Some Sample.salt))
         "password" "old" "s3cr3t" Sample.stale
       = Returned false w'.
Proof.
  assert (Hp : Demo.parse "not-a-valid-digest" = None) by reflexivity.
  split; [exact Hp|].
  destruct (evaluate_malformed_digest_absorbed Demo.Salt Demo.cost
              Demo.accepts Demo.derive Demo.parse
              (Some Sample.salt) "s3cr3t" "not-a-valid-digest" Hp)
    as (_ & Hchanged & Herr & Hok & _ & Hdiff).
  split; [exact Hchanged|]. split; [exact Herr|].
  split; [exact (Hok Sample.memo eq_refl)|].
  exact (Hdiff "password" "old" Sample.stale eq_refl).
Defined.

Lemma hashing_failure_forces_change_witness :
  error (Demo.evaluate None "new-s3cr3t" Sample.memo) = Some HashingFailed
  /\ isChanged (Demo.evaluate None "new-s3cr3t" Sample.memo) = true
  /\ DiffFuncSupressSecretChanged (Demo.IsUpdating None)
       "password" "s3cr3t" "new-s3cr3t" Sample.rotated
     = Returned false
         (appendLog Sample.rotated
            ("Change forced. Swallowing err while using secret hashing: "
             +:+ errorText HashingFailed))
  /\ exists w',
       HelpFlattenSecret (Demo.IsUpdating None) "password" Sample.rotated
       = Returned tt w'
       /\ w_data w'
          = RD.Set_ (w_data Sample.rotated) "password_hash" (VString "").
Proof.
  assert (He : error (Demo.evaluate None "new-s3cr3t" Sample.memo)
               = Some HashingFailed) by reflexivity.
  split; [exact He|].
  destruct (hashing_failure_forces_change Demo.Salt Demo.cost Demo.accepts
              Demo.derive Demo.parse None "new-s3cr3t" Sample.memo
              HashingFailed He)
    as (_ & Hchanged & _ & Hdiff & Hflat).
  split; [exact Hchanged|]. split.
  - exact (Hdiff "password" "s3cr3t" Sample.rotated eq_refl).
  - exact (Hflat "password" Sample.rotated eq_refl eq_refl).
Defined.

(** On a hashing failure the flatten helper replaces the stored memo of the
    previous secret by the empty string. *)
Lemma flatten_overwrites_memo_on_hashing_failure :
  error (Demo.evaluate None "new-s3cr3t" Sample.memo) = Some HashingFailed
  /\ RD.Get (w_data Sample.rotated) "password_hash" = VString Sample.memo
  /\ Sample.memo <> ""
  /\ exists w',
       HelpFlattenSecret (Demo.IsUpdating None) "password" Sample.rotated
       = Returned tt w'
       /\ RD.Get (w_data w') "password_hash" = VString "".
Proof.
  split; [reflexivity|]. split; [reflexivity|]. split; [discriminate|].
  eexists. split; [vm_compute; reflexivity|reflexivity].
Qed.


(** With a stored memo that is not a digest, a failed rehash surfaces
    [HashingFailed] to the caller of [evaluate]. *)
Lemma malformed_digest_with_failed_rehash_surfaces_error :
  Demo.parse "not-a-valid-digest" = None
  /\ Demo.evaluate None "s3cr3t" "not-a-valid-digest"
     = {| isChanged := true; newDigest := ""; error := Some HashingFailed |}
  /\ error (Demo.evaluate None "s3cr3t" "not-a-valid-digest") <> None.
Proof. split; [reflexivity|]. split; [reflexivity|discriminate]. Qed.


(** Without a stored memo a failed hash leaves the decision without any
    digest. *)
Lemma no_digest_when_hashing_fails :
  Demo.evaluate None "s3cr3t" ""
  = {| isChanged := true; newDigest := ""; error := Some HashingFailed |}
  /\ Demo.verify "s3cr3t" (newDigest (Demo.evaluate None "s3cr3t" ""))
     <> (true, None).
Proof. split; [reflexivity|discriminate]. Qed.

(** The helpers panic on a record whose memo attribute is undeclared or is
    not a string. *)
Lemma helpers_panic_without_string_memo :
  RD.Get (w_data Sample.undeclared) (calcSecretHashKey "password") = VNil
  /\ DiffFuncSupressSecretChanged (Demo.IsUpdating (Some Sample.salt))
       "password" "" "s3cr3t" Sample.undeclared
     = Panicked Sample.undeclared
  /\ HelpFlattenSecret (Demo.IsUpdating (Some Sample.salt))
       "password" Sample.undeclared
     = Panicked Sample.undeclared
  /\ RD.Get (w_data Sample.mistyped) (calcSecretHashKey "password") = VInt 0
  /\ DiffFuncSupressSecretChanged (Demo.IsUpdating (Some Sample.salt))
       "password" "" "s3cr3t" Sample.mistyped
     = Panicked Sample.mistyped
  /\ HelpFlattenSecret (Demo.IsUpdating (Some Sample.salt))
       "password" Sample.mistyped
     = Panicked Sample.mistyped.
Proof. repeat split. Qed.

(** ** The aggregated client *)

Section ClientFacts.

Variable sdk : Sdk.

Ltac run_client :=
  unfold getAzdoClient, mbind, Attempt_bind, mret, Attempt_ret,
    newClientOrLog, newClient, logLine, goResults.

Ltac split_constructors pat url :=
  destruct (core_NewClient sdk (Background sdk)
              (NewPatConnection sdk url pat)) as [c1|e1] eqn:Hcore;
  [destruct (build_NewClient sdk (Background sdk)
               (NewPatConnection sdk url pat)) as [c2|e2] eqn:Hbuild;
   [destruct (serviceendpoint_NewClient sdk (Background sdk)
                (NewPatConnection sdk url pat)) as [c3|e3] eqn:Hservice;
    [destruct (git_NewClient sdk (Background sdk)
                 (NewPatConnection sdk url pat)) as [c4|e4] eqn:Hgit;
     [destruct (graph_NewClient sdk (Background sdk)
                  (NewPatConnection sdk url pat)) as [c5|e5] eqn:Hgraph
     |]|]|]|].

Lemma nonempty_eqb (s : string) : s <> "" -> String.eqb s "" = false.
Proof. intros H. now apply String.eqb_neq. Qed.

(** X8: credentials are checked before anything else happens: an empty
    token is rejected with its own error whatever the URL is, an empty URL
    is rejected next, and a call constructs no client and logs nothing
    exactly when one of the two is empty. *)
Theorem getAzdoClient_rejects_empty_credentials
    (azdoPAT organizationURL : string) (c : ascii) :
  getAzdoClient sdk "" organizationURL
  = ([], (None, Some (Errorf sdk "the personal access token is required")))
  /\ getAzdoClient sdk (String c azdoPAT) ""
     = ([], (None, Some (Errorf sdk "the url of the Azure DevOps is required")))
  /\ ((getAzdoClient sdk azdoPAT organizationURL).1 = []
      <-> azdoPAT = "" \/ organizationURL = "").
Proof.
  split; [reflexivity|]. split; [reflexivity|].
  unfold getAzdoClient.
  destruct (String.eqb_spec azdoPAT "") as [->|Hpat]; [tauto|].
  destruct (String.eqb_spec organizationURL "") as [->|Hurl]; [tauto|].
  split; [|tauto].
  run_client. split_constructors azdoPAT organizationURL; discriminate.
Qed.

(** X9: a caller gets a client or an error, never both and never
    neither. *)
Theorem getAzdoClient_client_xor_error (azdoPAT organizationURL : string) :
  let results := (getAzdoClient sdk azdoPAT organizationURL).2 in
  (exists client, results = (Some client, None))
  \/ (exists err, results = (None, Some err)).
Proof.
  unfold getAzdoClient.
  destruct (String.eqb azdoPAT ""); [right; eauto|].
  destruct (String.eqb organizationURL ""); [right; eauto|].
  run_client. split_constructors azdoPAT organizationURL; cbn; eauto.
Qed.

(** X10: a client is returned exactly when both credentials are non-empty
    and all five fallible constructors succeed on the connection made from
    that URL and token; the aggregate then holds exactly the six clients
    created on that one connection, each in its own field, and the
    background context. *)
Theorem getAzdoClient_returns_client_iff
    (azdoPAT organizationURL : string) (client : aggregatedClient sdk) :
  let background := Background sdk in
  let connection := NewPatConnection sdk organizationURL azdoPAT in
  (getAzdoClient sdk azdoPAT organizationURL).2.1 = Some client
  <-> azdoPAT <> "" /\ organizationURL <> ""
      /\ core_NewClient sdk background connection = Ok (CoreClient client)
      /\ build_NewClient sdk background connection = Ok (BuildClient client)
      /\ OperationsClient client
         = operations_NewClient sdk background connection
      /\ serviceendpoint_NewClient sdk background connection
         = Ok (ServiceEndpointClient client)
      /\ git_NewClient sdk background connection = Ok (GitReposClient client)
      /\ graph_NewClient sdk background connection = Ok (GraphClient client)
      /\ ctx client = background.
Proof.
  cbv zeta. split.
  - unfold getAzdoClient.
    destruct (String.eqb_spec azdoPAT "") as [->|Hpat]; [discriminate|].
    destruct (String.eqb_spec organizationURL "") as [->|Hurl]; [discriminate|].
    run_client. split_constructors azdoPAT organizationURL; cbn;
      try discriminate.
    intros [= <-]. cbn. repeat split; assumption.
  - intros (Hpat & Hurl & Hc & Hb & Ho & Hs & Hg & Hgr & Hctx).
    unfold getAzdoClient.
    rewrite (nonempty_eqb _ Hpat), (nonempty_eqb _ Hurl).
    run_client. rewrite Hc, Hb, Hs, Hg, Hgr. cbn.
    destruct client; cbn in *. now subst.
Qed.

(** X11: the first constructor that fails ends the call: with non-empty
    credentials, if the constructors before an area in the creation order
    succeed and that area's constructor fails, the call returns exactly that
    error and no client, has called the constructors up to and including
    that area and none after it, and has logged the one line naming the
    area. *)
Theorem getAzdoClient_first_failure
    (azdoPAT organizationURL : string)
    (before after : list Service) (s : Service) (err : GoError sdk) :
  azdoPAT <> "" ->
  organizationURL <> "" ->
  clientOrder = (before ++ s :: after)%list ->
  Forall (fun s' => constructorError sdk azdoPAT organizationURL s' = None)
         before ->
  constructorError sdk azdoPAT organizationURL s = Some err ->
  getAzdoClient sdk azdoPAT organizationURL
  = ((Constructed <$> before)
     ++ [Constructed s;
         Logged ("getAzdoClient(): " +:+ packageName s +:+ ".NewClient failed.")],
     (None, Some err))%list.
Proof.
  intros Hpat Hurl Horder Hbefore Hfail.
  unfold getAzdoClient.
  rewrite (nonempty_eqb _ Hpat), (nonempty_eqb _ Hurl).
  unfold clientOrder in Horder.
  repeat (destruct before as [|? before]; simplify_eq/=;
          try (apply Forall_cons in Hbefore as [? Hbefore]));
    repeat match goal with
           | H : Forall _ (_ :: _) |- _ => apply Forall_cons in H as [? H]
           end;
    unfold constructorError, resultError in *;
    run_client;
    repeat match goal with
           | H : match ?r with Ok _ => _ | Err _ => _ end = _ |- _ =>
               destruct r eqn:?; simplify_eq/=
           end;
    try reflexivity.
Qed.

(** X12: the log never carries the token, the URL or an error value: every
    line the call logs is the fixed failure line of one area or the fixed
    success line, and the call logs exactly one line when both credentials
    are non-empty and none otherwise. *)
Theorem getAzdoClient_logs_fixed_lines (azdoPAT organizationURL : string) :
  let events := (getAzdoClient sdk azdoPAT organizationURL).1 in
  (forall line,
     Logged line ∈ events ->
     (exists s,
        line = "getAzdoClient(): " +:+ packageName s +:+ ".NewClient failed.")
     \/ line = "getAzdoClient(): Created core, build, operations, and serviceendpoint clients successfully!")
  /\ length (List.filter isLogged events)
     = if String.eqb azdoPAT "" || String.eqb organizationURL "" then 0 else 1.
Proof.
  unfold getAzdoClient.
  destruct (String.eqb azdoPAT "");
    [split; [intros line []%elem_of_nil|reflexivity]|].
  destruct (String.eqb organizationURL "");
    [split; [intros line []%elem_of_nil|reflexivity]|].
  run_client. split_constructors azdoPAT organizationURL; cbn;
    (split; [|reflexivity]); intros line Hin;
    repeat (apply elem_of_cons in Hin as [Hin|Hin]; [simplify_eq|]);
    try (apply elem_of_nil in Hin; contradiction).
  - now right.
  - left. now exists Graph.
  - left. now exists Git.
  - left. now exists ServiceEndpoint.
  - left. now exists Build.
  - left. now exists Core.
Qed.

(** X13: clients are created in one fixed order, each at most once: the
    constructors a call has invoked are always an initial part of core,
    build, operations, serviceendpoint, git, graph, and all six when a
    client is returned. *)
Theorem getAzdoClient_construction_order (azdoPAT organizationURL : string) :
  let outcome := getAzdoClient sdk azdoPAT organizationURL in
  (exists n, constructed outcome.1 = take n clientOrder)
  /\ (is_Some outcome.2.1 -> constructed outcome.1 = clientOrder).
Proof.
  unfold getAzdoClient.
  destruct (String.eqb azdoPAT "");
    [split; [now exists 0|intros []; discriminate]|].
  destruct (String.eqb organizationURL "");
    [split; [now exists 0|intros []; discriminate]|].
  run_client. split_constructors azdoPAT organizationURL; cbn.
  - split; [now exists 6|reflexivity].
  - split; [now exists 6|reflexivity].
  - split; [now exists 5|intros []; discriminate].
  - split; [now exists 4|intros []; discriminate].
  - split; [now exists 2|intros []; discriminate].
  - split; [now exists 1|intros []; discriminate].
Qed.

End ClientFacts.

(** ** More on the helpers of [tfhelper] *)

Lemma length_append (s t : string) :
  String.length (s +:+ t) = (String.length s + String.length t)%nat.
Proof.
  induction s as [|c s IH]; [reflexivity|].
  change (String c s +:+ t) with (String c (s +:+ t)). cbn. now rewrite IH.
Qed.

Lemma append_inj_r (s1 s2 t : string) : s1 +:+ t = s2 +:+ t -> s1 = s2.
Proof.
  revert s2. induction s1 as [|c1 s1 IH]; intros [|c2 s2] H.
  - reflexivity.
  - apply (f_equal String.length) in H.
    rewrite !length_append in H. cbn in H. lia.
  - apply (f_equal String.length) in H.
    rewrite !length_append in H. cbn in H. lia.
  - change (String c1 (s1 +:+ t) = String c2 (s2 +:+ t)) in H.
    injection H as -> H. f_equal. now apply IH.
Qed.

Lemma calcSecretHashKey_fresh (X : string) : calcSecretHashKey X <> X.
Proof.
  unfold calcSecretHashKey. intros H.
  apply (f_equal String.length) in H. rewrite length_append in H.
  cbn in H. lia.
Qed.

(** X1: the memo key identifies its secret: two attribute names have the
    same memo key only when they are the same name, and the memo key of an
    attribute is never that attribute's own name; the key the schema
    generator returns is that memo key. *)
Theorem calcSecretHashKey_injective (X Y : string) :
  (calcSecretHashKey X = calcSecretHashKey Y <-> X = Y)
  /\ calcSecretHashKey X <> X
  /\ ((GenerateSecreteMemoSchema X).1 = (GenerateSecreteMemoSchema Y).1
      <-> X = Y).
Proof.
  assert (Hinj : calcSecretHashKey X = calcSecretHashKey Y <-> X = Y).
  { split; [apply append_inj_r|now intros ->]. }
  split; [exact Hinj|]. split; [apply calcSecretHashKey_fresh|exact Hinj].
Qed.

Section MoreHelperFacts.

Variable IsUpdating : string -> string -> bool * string * option ErrorKind.

(** The record after the flatten helper is the record before it, possibly
    with the memo attribute set. *)
Lemma Flatten_data secretKey w :
  let after := w_data (outcomeWorld (HelpFlattenSecret IsUpdating secretKey w)) in
  after = w_data w
  \/ exists v, after = RD.Set_ (w_data w) (calcSecretHashKey secretKey) v.
Proof.
  cbv zeta.
  destruct (RD.HasChange (w_data w) secretKey) eqn:Hch.
  - destruct (assertString_cases (RD.Get (w_data w) secretKey)) as [[s Hs]|Hs].
    + destruct (assertString_cases
                  (RD.Get (w_data w) (calcSecretHashKey secretKey)))
        as [[o Ho]|Ho].
      * destruct (IsUpdating s o) as [[b h] err] eqn:Hup.
        rewrite (Flatten_change _ _ _ _ _ _ _ _ Hch Hs Ho Hup). right. eauto.
      * left. rewrite Flatten_panics; auto.
    + left. rewrite Flatten_panics; auto.
  - left. now rewrite (Flatten_no_change _ _ _ Hch).
Qed.

(** X2: the flatten helper never touches the secret it memoises: whatever
    the record and whatever hashing answers, the secret attribute, the
    prior state, the pending-change flag of the secret and the memo of
    every other secret attribute are the same after the call as before. *)
Theorem HelpFlattenSecret_preserves_secret (secretKey other : string) (w : World) :
  let after := w_data (outcomeWorld (HelpFlattenSecret IsUpdating secretKey w)) in
  rd_prior after = rd_prior (w_data w)
  /\ RD.Get after secretKey = RD.Get (w_data w) secretKey
  /\ RD.HasChange after secretKey = RD.HasChange (w_data w) secretKey
  /\ (other <> secretKey ->
      RD.Get after (calcSecretHashKey other)
      = RD.Get (w_data w) (calcSecretHashKey other)).
Proof.
  cbv zeta.
  destruct (Flatten_data secretKey w) as [->|[v ->]].
  - repeat split.
  - assert (Hget : RD.Get (RD.Set_ (w_data w) (calcSecretHashKey secretKey) v)
                     secretKey = RD.Get (w_data w) secretKey).
    { apply Get_Set_other, calcSecretHashKey_fresh. }
    split; [reflexivity|]. split; [exact Hget|]. split.
    + unfold RD.HasChange. rewrite Hget. reflexivity.
    + intros Hne. apply Get_Set_other. intros Heq.
      apply append_inj_r in Heq. congruence.
Qed.

(** X3: flatten and suppress fit together: once the flatten helper has
    stored the memo returned for a changed secret, and hashing recognises
    that memo for the same secret, the suppressor suppresses the diff of
    that secret without writing, and a repeated flatten leaves the record
    as the first one left it. *)
Theorem flatten_then_suppress
    (secretKey old newSecret oldHash newHash : string) (b : bool) (w : World) :
  RD.HasChange (w_data w) secretKey = true ->
  RD.Get (w_data w) secretKey = VString newSecret ->
  RD.Get (w_data w) (calcSecretHashKey secretKey) = VString oldHash ->
  IsUpdating newSecret oldHash = (b, newHash, None) ->
  IsUpdating newSecret newHash = (false, newHash, None) ->
  exists w1 w2 w3,
    HelpFlattenSecret IsUpdating secretKey w = Returned tt w1
    /\ RD.Get (w_data w1) (calcSecretHashKey secretKey) = VString newHash
    /\ DiffFuncSupressSecretChanged IsUpdating secretKey old newSecret w1
       = Returned true w2
    /\ w_data w2 = w_data w1
    /\ HelpFlattenSecret IsUpdating secretKey w1 = Returned tt w3
    /\ w_data w3 = w_data w1.
Proof.
  intros Hch Hs Ho Hup Hkeep.
  rewrite (Flatten_change _ _ _ _ _ _ _ _ Hch Hs Ho Hup).
  eexists. 
  set (w1 := {| w_data := RD.Set_ (w_data w) (calcSecretHashKey secretKey)
                            (VString newHash) |}).
  assert (Hmemo : RD.Get (w_data w1) (calcSecretHashKey secretKey)
                  = VString newHash) by apply Get_Set_same.
  assert (Hs1 : RD.Get (w_data w1) secretKey = VString newSecret).
  { cbn. rewrite Get_Set_other; [exact Hs|apply calcSecretHashKey_fresh]. }
  assert (Hch1 : RD.HasChange (w_data w1) secretKey = true).
  { unfold RD.HasChange in *. rewrite Hs1. cbn. now rewrite <- Hs. }
  destruct (DiffFunc_no_error _ secretKey old _ _ _ _ _ Hmemo Hkeep)
    as [line Hdiff].
  exists (appendLog w1 line). eexists.
  split; [reflexivity|]. split; [exact Hmemo|].
  split; [exact Hdiff|]. split; [reflexivity|].
  split; [exact (Flatten_change _ _ _ _ _ _ _ _ Hch1 Hs1 Hmemo Hkeep)|].
  cbn. apply (Set_same (w_data w1)). exact Hmemo.
Qed.

(** X4: the suppressor decides from the candidate and the stored memo
    alone: two calls for the same attribute and candidate on records that
    agree on the memo attribute hand back the same answer (or both panic),
    whatever the old value passed in and whatever else the records and logs
    hold. *)
Theorem DiffFuncSupressSecretChanged_depends_on_memo_only
    (k old1 old2 new : string) (w1 w2 : World) :
  RD.Get (w_data w1) (calcSecretHashKey k)
  = RD.Get (w_data w2) (calcSecretHashKey k) ->
  returnedValue (DiffFuncSupressSecretChanged IsUpdating k old1 new w1)
  = returnedValue (DiffFuncSupressSecretChanged IsUpdating k old2 new w2).
Proof.
  intros Hsame.
  destruct (assertString_cases (RD.Get (w_data w1) (calcSecretHashKey k)))
    as [[memo Hget]|Hget].
  - assert (Hget2 := Hget). rewrite Hsame in Hget2.
    destruct (IsUpdating new memo) as [[b h] [e|]] eqn:Hup.
    + now rewrite (DiffFunc_error _ _ _ _ _ _ _ _ _ Hget Hup),
        (DiffFunc_error _ _ _ _ _ _ _ _ _ Hget2 Hup).
    + destruct (DiffFunc_no_error _ k old1 _ _ _ _ _ Hget Hup) as [l1 ->].
      destruct (DiffFunc_no_error _ k old2 _ _ _ _ _ Hget2 Hup) as [l2 ->].
      reflexivity.
  - assert (Hget2 := Hget). rewrite Hsame in Hget2.
    now rewrite (DiffFunc_panics _ _ _ _ _ Hget), (DiffFunc_panics _ _ _ _ _ Hget2).
Qed.


End MoreHelperFacts.

(** X6: case-insensitive suppression is transitive, hence with C10 an
    equivalence on strings, and it looks at nothing but the two values: the
    attribute name and the record play no part. *)
Theorem DiffFuncSupressCaseSensitivity_transitive
    (ToLower : string -> string) (k k' a b c : string) (d d' : ResourceData) :
  (DiffFuncSupressCaseSensitivity ToLower k a b d = true ->
   DiffFuncSupressCaseSensitivity ToLower k b c d = true ->
   DiffFuncSupressCaseSensitivity ToLower k a c d = true)
  /\ DiffFuncSupressCaseSensitivity ToLower k a b d
     = DiffFuncSupressCaseSensitivity ToLower k' a b d'.
Proof.
  unfold DiffFuncSupressCaseSensitivity. split; [|reflexivity].
  destruct (String.eqb_spec (ToLower a) (ToLower b)) as [Hab|];
    [|discriminate].
  destruct (String.eqb_spec (ToLower b) (ToLower c)) as [Hbc|];
    [|discriminate].
  intros _ _. rewrite Hab, Hbc. now rewrite String.eqb_refl.
Qed.

Lemma lowerByte_idempotent (c : ascii) : lowerByte (lowerByte c) = lowerByte c.
Proof. destruct c as [[] [] [] [] [] [] [] []]; reflexivity. Qed.

Lemma asciiToLower_idempotent (s : string) :
  asciiToLower (asciiToLower s) = asciiToLower s.
Proof.
  induction s as [|c s IH]; cbn; [reflexivity|].
  now rewrite lowerByte_idempotent, IH.
Qed.

(** X7: when lowercasing twice is the same as lowercasing once, a value is
    never reported as different from its own lowercased form, and
    lowercasing both values beforehand does not change the answer. *)
Theorem DiffFuncSupressCaseSensitivity_normalised
    (ToLower : string -> string) (k a b : string) (d : ResourceData) :
  (forall s, ToLower (ToLower s) = ToLower s) ->
  DiffFuncSupressCaseSensitivity ToLower k a (ToLower a) d = true
  /\ DiffFuncSupressCaseSensitivity ToLower k (ToLower a) (ToLower b) d
     = DiffFuncSupressCaseSensitivity ToLower k a b d.
Proof.
  intros Hidem. unfold DiffFuncSupressCaseSensitivity.
  rewrite !Hidem. now rewrite String.eqb_refl.
Qed.

Lemma DiffFuncSupressCaseSensitivity_normalised_witness :
  (forall s, asciiToLower (asciiToLower s) = asciiToLower s)
  /\ DiffFuncSupressCaseSensitivity asciiToLower "name" "Azure-DevOps"
       (asciiToLower "Azure-DevOps") (mkResourceData ∅ ∅) = true.
Proof.
  split; [exact asciiToLower_idempotent|].
  exact (proj1 (DiffFuncSupressCaseSensitivity_normalised asciiToLower
                  "name" "Azure-DevOps" "AZURE-devops" (mkResourceData ∅ ∅)
                  asciiToLower_idempotent)).
Defined.

Lemma flatten_then_suppress_witness :
  RD.HasChange (w_data Sample.fresh) "password" = true
  /\ Demo.IsUpdating (Some Sample.salt) "s3cr3t" "" = (true, Sample.memo, None)
  /\ Demo.IsUpdating (Some Sample.salt) "s3cr3t" Sample.memo
     = (false, Sample.memo, None)
  /\ exists w1 w2 w3,
       HelpFlattenSecret (Demo.IsUpdating (Some Sample.salt)) "password"
         Sample.fresh
       = Returned tt w1
       /\ RD.Get (w_data w1) (calcSecretHashKey "password")
          = VString Sample.memo
       /\ DiffFuncSupressSecretChanged (Demo.IsUpdating (Some Sample.salt))
            "password" "" "s3cr3t" w1
          = Returned true w2
       /\ w_data w2 = w_data w1
       /\ HelpFlattenSecret (Demo.IsUpdating (Some Sample.salt)) "password" w1
          = Returned tt w3
       /\ w_data w3 = w_data w1.
Proof.
  split; [reflexivity|]. split; [reflexivity|]. split; [reflexivity|].
  exact (flatten_then_suppress (Demo.IsUpdating (Some Sample.salt))
           "password" "" "s3cr3t" "" Sample.memo true Sample.fresh
           eq_refl eq_refl eq_refl eq_refl eq_refl).
Defined.

Lemma DiffFuncSupressSecretChanged_depends_on_memo_only_witness :
  RD.Get (w_data Sample.memoised) (calcSecretHashKey "password")
  = RD.Get (w_data Sample.rotated) (calcSecretHashKey "password")
  /\ returnedValue
       (DiffFuncSupressSecretChanged (Demo.IsUpdating (Some Sample.otherSalt))
          "password" "s3cr3t" "s3cr3t" Sample.memoised)
     = returnedValue
         (DiffFuncSupressSecretChanged (Demo.IsUpdating (Some Sample.otherSalt))
            "password" "anything" "s3cr3t" Sample.rotated).
Proof.
  split; [reflexivity|].
  exact (DiffFuncSupressSecretChanged_depends_on_memo_only
           (Demo.IsUpdating (Some Sample.otherSalt))
           "password" "s3cr3t" "anything" "s3cr3t"
           Sample.memoised Sample.rotated eq_refl).
Defined.

Lemma getAzdoClient_first_failure_witness :
  "pat" <> "" /\ "https://dev.azure.com/org" <> ""
  /\ clientOrder = ([Core; Build; Operations; ServiceEndpoint] ++ Git :: [Graph])%list
  /\ constructorError (DemoSdk.sdk [Git; Graph]) "pat"
       "https://dev.azure.com/org" Git
     = Some "git is unreachable"
  /\ getAzdoClient (DemoSdk.sdk [Git; Graph]) "pat" "https://dev.azure.com/org"
     = ([Constructed Core; Constructed Build; Constructed Operations;
         Constructed ServiceEndpoint; Constructed Git;
         Logged "getAzdoClient(): git.NewClient failed."],
        (None, Some "git is unreachable")).
Proof.
  assert (Hpat : "pat" <> "") by discriminate.
  assert (Hurl : "https://dev.azure.com/org" <> "") by discriminate.
  split; [exact Hpat|]. split; [exact Hurl|].
  split; [reflexivity|]. split; [reflexivity|].
  assert (Hbefore :
    Forall (fun s' =>
              constructorError (DemoSdk.sdk [Git; Graph]) "pat"
                "https://dev.azure.com/org" s' = None)
           [Core; Build; Operations; ServiceEndpoint])
    by (repeat constructor).
  exact (getAzdoClient_first_failure (DemoSdk.sdk [Git; Graph])
           "pat" "https://dev.azure.com/org"
           [Core; Build; Operations; ServiceEndpoint] [Graph] Git
           "git is unreachable" Hpat Hurl eq_refl Hbefore eq_refl).
Defined.
